(** * Firebot profile manager: a shallow embedding of
      [src/backend/common/profile-manager.ts]

    The class [ProfileManager] keeps two in-memory fields
    ([loggedInUser], [profileToRename]) and talks to four collaborators that
    are not part of the file: the settings store ([SettingsManager]), the
    file system ([fs], [dataAccess]), the file name sanitizer
    ([sanitize-filename]) and the restart primitive ([restartApp]).  Each
    method is embedded as a function on an explicit [World] that holds the
    fields, the settings, the disk and the number of restarts asked for.
    Calls to [logger] and [frontendCommunicator] have no effect on that state
    and are left out. *)

From Equations Require Import Equations.
From Equations.Prop Require Logic.
From Stdlib Require Import List String Ascii Bool Arith ZArith PArith Lia.
From Stdlib Require Import DecimalString DecimalPos.
Import ListNotations.
Open Scope string_scope.

Set Implicit Arguments.

(** ** JavaScript strings and arrays *)

Module Js.

(** Template literal [`${n}`] of a positive integer counter: its decimal
    digits. *)
Definition showCounter (n : positive) : string :=
  NilEmpty.string_of_uint (Pos.to_uint n).

(** [Array.prototype.includes] on an array of strings. *)
Definition includes (a : list string) (x : string) : bool :=
  existsb (String.eqb x) a.

(** [Array.prototype.indexOf]: position of the first element equal to [x],
    [-1] when there is none. *)
Fixpoint indexOf (a : list string) (x : string) : Z :=
  match a with
  | [] => (-1)%Z
  | y :: a' =>
      if String.eqb y x then 0%Z
      else let i := indexOf a' x in
           if (i <? 0)%Z then (-1)%Z else (i + 1)%Z
  end.

(** Replacement of the element at a position that exists. *)
Fixpoint setNth (n : nat) (v : string) (a : list string) : list string :=
  match a, n with
  | [], _ => []
  | _ :: a', O => v :: a'
  | y :: a', S n' => y :: setNth n' v a'
  end.

(** The assignment [a[i] = v] for an index [i] computed by [indexOf] on the
    same array, hence [-1 <= i < a.length].  For [0 <= i] the element at
    that position is replaced.  For [i = -1] JavaScript creates the
    property named ["-1"] on the array object, which is not an element:
    [length], [includes], [indexOf] and the list written to the settings
    store do not see it, so the elements are the same as before.  (Indices
    past the end, which would extend the array, are never produced by
    [indexOf]; [setNth] leaves the array as it is there.) *)
Definition assign (a : list string) (i : Z) (v : string) : list string :=
  if (i <? 0)%Z then a else setNth (Z.to_nat i) v a.

(** Removal of the element at position [n], when there is one. *)
Fixpoint removeNth (n : nat) (a : list string) : list string :=
  match a, n with
  | [], _ => []
  | _ :: a', O => a'
  | y :: a', S n' => y :: removeNth n' a'
  end.

(** [a.splice(i, 1)] for [i >= 0]. *)
Definition splice1 (a : list string) (i : Z) : list string :=
  removeNth (Z.to_nat i) a.

End Js.

(** The element-wise reading of [a.splice(a.indexOf(x), 1)] and of
    [a[a.indexOf(x)] = v]. *)
Fixpoint removeFirst (x : string) (a : list string) : list string :=
  match a with
  | [] => []
  | y :: a' => if String.eqb y x then a' else y :: removeFirst x a'
  end.

Fixpoint replaceFirst (x v : string) (a : list string) : list string :=
  match a with
  | [] => []
  | y :: a' => if String.eqb y x then v :: a' else y :: replaceFirst x v a'
  end.

(** ** The settings store

    [SettingsManager] lives in settings-manager.ts, which is not among the
    sources.  The spec describes it as a durable key-value store with get
    (which fails distinguishably when the key is absent), save and delete.
    The three keys the profile manager uses are named by [SettingName]. *)

Inductive SettingName : Type :=
| LoggedInProfile
| ActiveProfiles
| DeleteProfile.

Definition SettingType (k : SettingName) : Type :=
  match k with
  | ActiveProfiles => list string
  | LoggedInProfile | DeleteProfile => string
  end.

Module SettingsManager.

(** Modelled from the spec: the contents of the store of
    settings-manager.ts, one optional field for each key; [None] is an
    absent key. *)
Record Settings : Type := mkSettings {
  loggedInProfile : option string;
  activeProfiles : option (list string);
  deleteProfile : option string
}.

(** Modelled from the spec: [SettingsManager.getSetting] of
    settings-manager.ts; [None] stands for the key-not-found failure. *)
Definition getSetting (k : SettingName) (s : Settings) : option (SettingType k) :=
  match k with
  | LoggedInProfile => loggedInProfile s
  | ActiveProfiles => activeProfiles s
  | DeleteProfile => deleteProfile s
  end.

(** Modelled from the spec: [SettingsManager.saveSetting] of
    settings-manager.ts. *)
Definition saveSetting (k : SettingName) : SettingType k -> Settings -> Settings :=
  match k with
  | LoggedInProfile => fun v s =>
      mkSettings (Some v) (activeProfiles s) (deleteProfile s)
  | ActiveProfiles => fun v s =>
      mkSettings (loggedInProfile s) (Some v) (deleteProfile s)
  | DeleteProfile => fun v s =>
      mkSettings (loggedInProfile s) (activeProfiles s) (Some v)
  end.

(** Modelled from the spec: [SettingsManager.deleteSetting] of
    settings-manager.ts. *)
Definition deleteSetting (k : SettingName) (s : Settings) : Settings :=
  match k with
  | LoggedInProfile => mkSettings None (activeProfiles s) (deleteProfile s)
  | ActiveProfiles => mkSettings (loggedInProfile s) None (deleteProfile s)
  | DeleteProfile => mkSettings (loggedInProfile s) (activeProfiles s) None
  end.

End SettingsManager.

(** ** The platform: sanitizer and disk

    [sanitizeFileName] (the npm package sanitize-filename), [fs.renameSync]
    and the [dataAccess] helpers are outside the repository sources; the
    development is parametric in them.  [renameSync] returns [None] when it
    throws, the disk being as before; a recursive removal that throws may
    have removed part of the tree already, so [deleteFolderRecursive] returns
    the disk it leaves in both cases. *)

Inductive DiskResult (D : Type) : Type :=
| Done (d : D)
| Thrown (d : D).

Class Platform : Type := {
  Disk : Type;
  sanitizeFileName : string -> string;
  getPathInUserData : string -> string;
  renameSync : string -> string -> Disk -> option Disk;
  deleteFolderRecursive : string -> Disk -> DiskResult Disk
}.

(** ** The collision loop

    Both [createNewProfile] and [renameProfile] run
<<
      let counter = 1;
      while (activeProfiles.includes(profileId)) {
          profileId = `${profileId}${counter}`;
          counter++;
      }
>>
    The candidate gets longer at every turn, so fewer and fewer elements of
    the array are at least as long as it: that count is the measure. *)

Definition longerCount (a : list string) (id : string) : nat :=
  List.length (filter (fun x => Nat.leb (String.length id) (String.length x)) a).

Lemma string_length_append (s t : string) :
  String.length (s ++ t) = String.length s + String.length t.
Proof.
  induction s as [| c s IH]; simpl; [reflexivity | now rewrite IH].
Qed.

Lemma showCounter_length (n : positive) : 1 <= String.length (Js.showCounter n).
Proof.
  unfold Js.showCounter.
  pose proof (DecimalPos.Unsigned.to_uint_nonnil n) as Hn.
  destruct (Pos.to_uint n); simpl; try lia.
  now elim Hn.
Qed.

Lemma filter_length_lt (A : Type) (p q : A -> bool) (x : A) (l : list A) :
  (forall y, p y = true -> q y = true) ->
  In x l -> q x = true -> p x = false ->
  List.length (filter p l) < List.length (filter q l).
Proof.
  intros Hpq Hin Hq Hp.
  assert (Hle : forall l', List.length (filter p l') <= List.length (filter q l')).
  { induction l' as [| y l' IH]; simpl; [lia |].
    destruct (p y) eqn:Ep.
    - rewrite (Hpq y Ep). simpl. lia.
    - destruct (q y); simpl; lia. }
  induction l as [| y l IH]; simpl in *; [contradiction |].
  destruct Hin as [-> | Hin].
  - rewrite Hp, Hq. simpl. specialize (Hle l). lia.
  - specialize (IH Hin).
    destruct (p y) eqn:Ep.
    + rewrite (Hpq y Ep). simpl. lia.
    + destruct (q y); simpl; lia.
Qed.

Lemma includes_In (a : list string) (x : string) :
  Js.includes a x = true <-> In x a.
Proof.
  unfold Js.includes. rewrite existsb_exists. split.
  - intros [y [Hy He]]. apply String.eqb_eq in He. now subst.
  - intros H. exists x. split; [assumption | apply String.eqb_refl].
Qed.

Lemma longerCount_decreases (a : list string) (id : string) (n : positive) :
  Js.includes a id = true ->
  longerCount a (id ++ Js.showCounter n) < longerCount a id.
Proof.
  intros Hin. apply includes_In in Hin.
  pose proof (showCounter_length n) as Hn.
  unfold longerCount. apply filter_length_lt with (x := id).
  - intros y Hy. apply Nat.leb_le in Hy. apply Nat.leb_le.
    rewrite string_length_append in Hy. lia.
  - assumption.
  - apply Nat.leb_le. lia.
  - apply Nat.leb_gt. rewrite string_length_append. lia.
Qed.

Equations? collisionLoop (a : list string) (profileId : string) (counter : positive)
  : string by wf (longerCount a profileId) lt :=
  collisionLoop a profileId counter with Logic.inspect (Js.includes a profileId) => {
    | exist _ true Hinc =>
        collisionLoop a (profileId ++ Js.showCounter counter) (Pos.succ counter);
    | exist _ false _ => profileId }.
Proof.
  now apply longerCount_decreases.
Qed.

(** ** The profile manager *)

Section ProfileManager.

Context {P : Platform}.

(** The durable settings and disk, the bootstrap list read through
    [dataAccess.getJsonDbInUserData("./global-settings")] ([None] when that
    read throws), the two fields of the class ([None] for [undefined]) and
    the number of calls to [restartApp]. *)
Record World : Type := mkWorld {
  settings : SettingsManager.Settings;
  disk : Disk;
  globalSettingsDb : option (list string);
  loggedInUser : option string;
  profileToRename : option string;
  restarts : nat
}.

Definition withSettings (s : SettingsManager.Settings) (w : World) : World :=
  mkWorld s (disk w) (globalSettingsDb w) (loggedInUser w)
          (profileToRename w) (restarts w).

Definition withDisk (d : Disk) (w : World) : World :=
  mkWorld (settings w) d (globalSettingsDb w) (loggedInUser w)
          (profileToRename w) (restarts w).

Definition withLoggedInUser (u : option string) (w : World) : World :=
  mkWorld (settings w) (disk w) (globalSettingsDb w) u
          (profileToRename w) (restarts w).

Definition withProfileToRename (n : option string) (w : World) : World :=
  mkWorld (settings w) (disk w) (globalSettingsDb w) (loggedInUser w)
          n (restarts w).

(** [restartApp()] returns to its caller; the restart it asks for is
    counted. *)
Definition restartApp (w : World) : World :=
  mkWorld (settings w) (disk w) (globalSettingsDb w) (loggedInUser w)
          (profileToRename w) (S (restarts w)).

(** [SettingsManager.saveSetting(k, v)] and [deleteSetting(k)] on the
    world. *)
Definition save (k : SettingName) (v : SettingType k) (w : World) : World :=
  withSettings (SettingsManager.saveSetting k v (settings w)) w.

Definition drop (k : SettingName) (w : World) : World :=
  withSettings (SettingsManager.deleteSetting k (settings w)) w.

(** [saveSetting(k, undefined)]: JSON has no such value, the key is not
    written and is absent from the durable store afterwards. *)
Definition saveUndefined (k : SettingName) (w : World) : World :=
  drop k w.

Definition logInProfile (profileId : string) (w : World) : World :=
  restartApp (save LoggedInProfile profileId w).

(** [profileId] is [None] for an omitted argument. *)
Definition createNewProfile (profileId : option string) (w : World) : World :=
  let profileId :=
    match profileId with
    | None => "Main"
    | Some p => if String.eqb p "" then "Main" else sanitizeFileName p
    end in
  let activeProfiles :=
    match SettingsManager.getSetting ActiveProfiles (settings w) with
    | Some a => a
    | None => []
    end in
  let profileId := collisionLoop activeProfiles profileId 1 in
  let activeProfiles := (activeProfiles ++ [profileId])%list in
  let w := save ActiveProfiles activeProfiles w in
  let w := save LoggedInProfile profileId w in
  logInProfile profileId w.

(** The result is [None] when the method falls off its end (returns
    [undefined]) after the bootstrap paths. *)
Definition getLoggedInProfile (w : World) : option string * World :=
  match loggedInUser w with
  | Some u => (Some u, w)
  | None =>
      match SettingsManager.getSetting LoggedInProfile (settings w) with
      | Some u => (Some u, withLoggedInUser (Some u) w)
      | None =>
          match globalSettingsDb w with
          | Some (first :: _) => (None, logInProfile first w)
          | Some [] => (None, restartApp (saveUndefined LoggedInProfile w))
          | None => (None, createNewProfile None w)
          end
      end
  end.

Definition renameProfile (newProfileId : string) (w : World) : World :=
  let (_, w) := getLoggedInProfile w in
  let sanitizedNewProfileId := sanitizeFileName newProfileId in
  if String.eqb sanitizedNewProfileId "" then w
  else
    let activeProfiles :=
      match SettingsManager.getSetting ActiveProfiles (settings w) with
      | Some a => a
      | None => []
      end in
    let sanitizedNewProfileId :=
      collisionLoop activeProfiles sanitizedNewProfileId 1 in
    restartApp (withProfileToRename (Some sanitizedNewProfileId) w).

Definition deleteProfile (w : World) : World :=
  let (profileId, w) := getLoggedInProfile w in
  let w :=
    match profileId with
    | Some p => save DeleteProfile p w
    | None => saveUndefined DeleteProfile w
    end in
  restartApp w.

Definition getNewProfileName (w : World) : option string := profileToRename w.

Definition hasProfileRename (w : World) : bool :=
  match profileToRename w with
  | Some _ => true
  | None => false
  end.

Definition profilePath (profileId : string) : string :=
  getPathInUserData ("/profiles/" ++ profileId).

Definition handleProfileRename (w : World) : World :=
  if negb (hasProfileRename w) then w
  else
    let (currentProfileId, w) := getLoggedInProfile w in
    let newProfileId := getNewProfileName w in
    match SettingsManager.getSetting ActiveProfiles (settings w) with
    | None => w
    | Some activeProfiles =>
        match currentProfileId, newProfileId with
        | Some currentProfileId, Some newProfileId =>
            if String.eqb newProfileId "" then w
            else
              match renameSync (profilePath currentProfileId)
                               (profilePath newProfileId) (disk w) with
              | None => w
              | Some d =>
                  let w := withDisk d w in
                  let profilePosition :=
                    Js.indexOf activeProfiles currentProfileId in
                  let activeProfiles :=
                    Js.assign activeProfiles profilePosition newProfileId in
                  let w := save ActiveProfiles activeProfiles w in
                  save LoggedInProfile newProfileId w
              end
        | _, _ => w
        end
    end.

Definition handleProfileDeletion (w : World) : World :=
  let '(deletedProfile, activeProfiles) :=
    match SettingsManager.getSetting DeleteProfile (settings w) with
    | None => (None, None)
    | Some d => (Some d, SettingsManager.getSetting ActiveProfiles (settings w))
    end in
  match deletedProfile with
  | None => w
  | Some deletedProfile =>
      match deleteFolderRecursive (profilePath deletedProfile) (disk w) with
      | Thrown d => withDisk d w
      | Done d =>
          let w := withDisk d w in
          match activeProfiles with
          | None => w
          | Some activeProfiles =>
              let profilePosition :=
                Js.indexOf activeProfiles deletedProfile in
              let '(activeProfiles, w) :=
                if (profilePosition >? -1)%Z
                then let a := Js.splice1 activeProfiles profilePosition in
                     (a, save ActiveProfiles a w)
                else (activeProfiles, w) in
              let w :=
                match activeProfiles with
                | first :: _ => save LoggedInProfile first w
                | [] => drop LoggedInProfile w
                end in
              drop DeleteProfile w
          end
      end
  end.

End ProfileManager.

Arguments World P : clear implicits.

(** The data-model invariant on the stored list: no id occurs twice. *)
Definition noDuplicateIds (s : SettingsManager.Settings) : Prop :=
  match SettingsManager.activeProfiles s with
  | Some a => NoDup a
  | None => True
  end.

(** The array both [createNewProfile] and [renameProfile] work on: the
    stored list, or the empty array they start from when the key cannot be
    read (lines 95 and 104-110, 175-181). *)
Definition activeOrEmpty (s : SettingsManager.Settings) : list string :=
  match SettingsManager.getSetting ActiveProfiles s with
  | Some a => a
  | None => []
  end.

(** ** The process and its requests *)

(** The candidate the collision loop holds after [k] turns, started on
    [id] with the counter at [counter]: each turn appends the digits of the
    counter to the candidate of the turn before. *)
Fixpoint candidate (id : string) (counter : positive) (k : nat) : string :=
  match k with
  | O => id
  | S k' => candidate (id ++ Js.showCounter counter) (Pos.succ counter) k'
  end.

(** The names the constructor registers with [frontendCommunicator.on]
    (lines 17-35), each with the payload its handler takes. *)
Module Event.

Inductive t : Type :=
| getLoggedInProfile
| createProfile (profileName : string)
| deleteProfile
| switchProfile (profileId : string)
| renameProfile (newProfileId : string).

End Event.

Section Process.

Context {P : Platform}.

(** The object a new process builds ([new ProfileManager()], line 310): the
    constructor assigns neither [loggedInUser] nor [profileToRename]; the
    settings, the disk and the bootstrap file are what the previous process
    left. *)
Definition newProcess (w : World P) : World P :=
  mkWorld (settings w) (disk w) (globalSettingsDb w) None None 0.

(** The handler the constructor installs for an event; only the first one
    returns a value to the frontend. *)
Definition on (e : Event.t) (w : World P) : option string * World P :=
  match e with
  | Event.getLoggedInProfile => getLoggedInProfile w
  | Event.createProfile profileName =>
      (None, createNewProfile (Some profileName) w)
  | Event.deleteProfile => (None, deleteProfile w)
  | Event.switchProfile profileId => (None, logInProfile profileId w)
  | Event.renameProfile newProfileId => (None, renameProfile newProfileId w)
  end.

(** A run of the process on the events it receives, in order. *)
Fixpoint onAll (es : list Event.t) (w : World P) : World P :=
  match es with
  | [] => w
  | e :: es' => onAll es' (snd (on e w))
  end.

End Process.

(** ** A small platform to run the methods on

    Directories are a list of paths; a read-only disk refuses every change.
    The sanitizer drops the characters sanitize-filename treats as illegal
    ([/ ? < > \ : * |], the double quote and control characters). *)

Module Demo.

Record disk : Type := mkDisk {
  dirs : list string;
  readOnly : bool
}.

Definition illegal (c : ascii) : bool :=
  existsb (Ascii.eqb c) ["/"; "?"; "<"; ">"; "\"; ":"; "*"; "|"]%char
  || (nat_of_ascii c =? 34)%nat || (nat_of_ascii c <? 32)%nat.

Fixpoint sanitize (s : string) : string :=
  match s with
  | EmptyString => EmptyString
  | String c s' => if illegal c then sanitize s' else String c (sanitize s')
  end.

Definition exists_ (p : string) (d : disk) : bool :=
  existsb (String.eqb p) (dirs d).

Definition rename (old new : string) (d : disk) : option disk :=
  if readOnly d then None
  else if exists_ old d && negb (exists_ new d)
       then Some (mkDisk (map (fun p => if String.eqb p old then new else p)
                              (dirs d)) false)
       else None.

Definition remove (p : string) (d : disk) : DiskResult disk :=
  if readOnly d then Thrown d
  else Done (mkDisk (filter (fun q => negb (String.eqb q p)) (dirs d)) false).

Definition platform : Platform := {|
  Disk := disk;
  sanitizeFileName := sanitize;
  getPathInUserData := fun p => "/userdata" ++ p;
  renameSync := rename;
  deleteFolderRecursive := remove
|}.

Definition world (logged : option string) (active : option (list string))
           (del : option string) (ds : list string) (ro : bool)
           (cached pending : option string) : World platform :=
  @mkWorld platform (SettingsManager.mkSettings logged active del)
           (mkDisk ds ro) None cached pending 0.

End Demo.

(** * Properties *)

(** ** The collision loop *)

Lemma collisionLoop_step (a : list string) (id : string) (c : positive) :
  collisionLoop a id c =
  if Js.includes a id
  then collisionLoop a (id ++ Js.showCounter c) (Pos.succ c)
  else id.
Proof.
  funelim (collisionLoop a id c).
  - now rewrite Hinc.
  - now rewrite e.
Qed.

(** The loop leaves with an id that is not in the array. *)
Lemma collisionLoop_fresh (a : list string) (id : string) (c : positive) :
  ~ In (collisionLoop a id c) a.
Proof.
  funelim (collisionLoop a id c).
  - congruence.
  - intros Hin. apply includes_In in Hin. congruence.
Qed.

(** ** Arrays *)

Lemma indexOf_spec (a : list string) (x : string) :
  (In x a /\ (0 <= Js.indexOf a x)%Z) \/ (~ In x a /\ Js.indexOf a x = (-1)%Z).
Proof.
  induction a as [| y a IH]; simpl.
  - right. split; [tauto | reflexivity].
  - destruct (String.eqb_spec y x) as [-> | Hne].
    + left. split; [now left | lia].
    + destruct IH as [[Hin Hpos] | [Hnin Hneg]].
      * left. split; [now right |].
        destruct (Z.ltb_spec (Js.indexOf a x) 0); lia.
      * right. split; [intros [H | H]; [congruence | tauto] |].
        rewrite Hneg. reflexivity.
Qed.

Lemma indexOf_absent (a : list string) (x : string) :
  ~ In x a -> Js.indexOf a x = (-1)%Z.
Proof.
  intros H. destruct (indexOf_spec a x) as [[Hin _] | [_ He]]; tauto.
Qed.

Lemma indexOf_present (a : list string) (x : string) :
  In x a -> (0 <= Js.indexOf a x)%Z.
Proof.
  intros H. destruct (indexOf_spec a x) as [[_ Hp] | [Hn _]]; tauto.
Qed.

Lemma indexOf_lt_length (a : list string) (x : string) :
  (Js.indexOf a x < Z.of_nat (List.length a))%Z.
Proof.
  induction a as [| y a IH]; simpl List.length; simpl Js.indexOf; [lia |].
  destruct (String.eqb y x); [lia |].
  destruct (Z.ltb_spec (Js.indexOf a x) 0); lia.
Qed.

Lemma splice1_indexOf (a : list string) (x : string) :
  In x a -> Js.splice1 a (Js.indexOf a x) = removeFirst x a.
Proof.
  unfold Js.splice1. induction a as [| y a IH]; simpl; [tauto |].
  intros Hin. destruct (String.eqb_spec y x) as [-> | Hne]; [reflexivity |].
  destruct Hin as [H | Hin]; [congruence |].
  pose proof (indexOf_present a x Hin) as Hpos.
  destruct (Z.ltb_spec (Js.indexOf a x) 0); [lia |].
  replace (Z.to_nat (Js.indexOf a x + 1)) with (S (Z.to_nat (Js.indexOf a x))) by lia.
  simpl. now rewrite IH.
Qed.

Lemma assign_indexOf (a : list string) (x v : string) :
  Js.assign a (Js.indexOf a x) v = replaceFirst x v a.
Proof.
  unfold Js.assign. induction a as [| y a IH]; simpl; [reflexivity |].
  destruct (String.eqb_spec y x) as [-> | Hne]; [reflexivity |].
  destruct (Z.ltb_spec (Js.indexOf a x) 0) as [Hlt | Hge]; simpl.
  - f_equal. exact IH.
  - destruct (Z.ltb_spec (Js.indexOf a x + 1) 0); [lia |].
    replace (Z.to_nat (Js.indexOf a x + 1)) with (S (Z.to_nat (Js.indexOf a x))) by lia.
    simpl. f_equal. exact IH.
Qed.

Lemma replaceFirst_absent (x v : string) (a : list string) :
  ~ In x a -> replaceFirst x v a = a.
Proof.
  induction a as [| y a IH]; simpl; [reflexivity |].
  intros H. destruct (String.eqb_spec y x) as [-> | Hne]; [tauto |].
  f_equal. apply IH. tauto.
Qed.

Lemma replaceFirst_In (x v y : string) (a : list string) :
  In y (replaceFirst x v a) -> y = v \/ In y a.
Proof.
  induction a as [| z a IH]; simpl; [tauto |].
  destruct (String.eqb z x); simpl; intuition.
Qed.


Lemma removeFirst_In (x y : string) (a : list string) :
  In y (removeFirst x a) -> In y a.
Proof.
  induction a as [| z a IH]; simpl; [tauto |].
  destruct (String.eqb z x); simpl; intuition.
Qed.


Lemma removeFirst_NoDup (x : string) (a : list string) :
  NoDup a -> NoDup (removeFirst x a) /\ ~ In x (removeFirst x a).
Proof.
  induction a as [| z a IH]; simpl; intros Hnd.
  - split; [constructor | tauto].
  - inversion Hnd as [| ? ? Hz Hnd']; subst.
    destruct (String.eqb_spec z x) as [-> | Hzx].
    + split; assumption.
    + destruct (IH Hnd') as [IH1 IH2]. split.
      * constructor; [| assumption].
        intros Hin. apply removeFirst_In in Hin. tauto.
      * simpl. intros [H | H]; tauto.
Qed.


(** ** The identity resolver *)

Section Resolver.

Context {P : Platform}.
Implicit Types w : World P.

(** When the resolver returns an id, all it did was to fill the cache. *)
Lemma getLoggedInProfile_resolved w cur :
  fst (getLoggedInProfile w) = Some cur ->
  snd (getLoggedInProfile w) = withLoggedInUser (Some cur) w.
Proof.
  destruct w as [s dk db lu ptr rs]. unfold getLoggedInProfile. simpl.
  destruct lu as [u |]; simpl.
  - intros [= ->]. reflexivity.
  - destruct (SettingsManager.loggedInProfile s) as [u |]; simpl.
    + intros [= ->]. reflexivity.
    + destruct db as [[| first rest] |]; simpl; discriminate.
Qed.

Lemma getLoggedInProfile_cached w u :
  loggedInUser w = Some u -> getLoggedInProfile w = (Some u, w).
Proof.
  intros H. unfold getLoggedInProfile. now rewrite H.
Qed.

Lemma createNewProfile_pending id w :
  profileToRename (createNewProfile id w) = profileToRename w.
Proof. reflexivity. Qed.

Lemma getLoggedInProfile_pending w :
  profileToRename (snd (getLoggedInProfile w)) = profileToRename w.
Proof.
  unfold getLoggedInProfile.
  destruct (loggedInUser w); [reflexivity |].
  destruct (SettingsManager.getSetting LoggedInProfile (settings w));
    [reflexivity |].
  destruct (globalSettingsDb w) as [[| first rest] |]; reflexivity.
Qed.

Lemma NoDup_snoc (a : list string) (x : string) :
  NoDup a -> ~ In x a -> NoDup (a ++ [x]).
Proof.
  induction a as [| y a IH]; simpl; intros Hnd Hx.
  - constructor; [tauto | constructor].
  - inversion Hnd as [| ? ? Hy Hnd']; subst.
    constructor; [| apply IH; tauto].
    rewrite in_app_iff. simpl. intros [H | [H | []]]; [tauto |].
    subst. tauto.
Qed.

Lemma createNewProfile_noDup id w :
  noDuplicateIds (settings w) ->
  noDuplicateIds (settings (createNewProfile id w)).
Proof.
  unfold noDuplicateIds, createNewProfile. simpl.
  destruct (SettingsManager.activeProfiles (settings w)) as [a |]; intros Hnd.
  - apply NoDup_snoc; [assumption | apply collisionLoop_fresh].
  - apply NoDup_snoc; [constructor | apply collisionLoop_fresh].
Qed.

Lemma getLoggedInProfile_noDup w :
  noDuplicateIds (settings w) ->
  noDuplicateIds (settings (snd (getLoggedInProfile w))).
Proof.
  intros Hnd. unfold getLoggedInProfile.
  destruct (loggedInUser w); [assumption |].
  destruct (SettingsManager.getSetting LoggedInProfile (settings w));
    [assumption |].
  destruct (globalSettingsDb w) as [[| first rest] |]; cbn [snd];
    [assumption | assumption |].
  now apply createNewProfile_noDup.
Qed.

End Resolver.

(** ** Create: the collision suffix *)

(** What the loop returns when the base and the base followed by [1] are
    both taken: the second suffix is appended to the first, whether or not
    the base followed by [2] is free. *)
Lemma collisionLoop_second_collision (a : list string) (base : string) :
  In base a -> In (base ++ "1") a -> ~ In ((base ++ "1") ++ "2") a ->
  collisionLoop a base 1 = (base ++ "1") ++ "2".
Proof.
  intros H0 H1 H2.
  apply includes_In in H0. apply includes_In in H1.
  assert (H3 : Js.includes a ((base ++ "1") ++ "2") = false).
  { destruct (Js.includes a ((base ++ "1") ++ "2")) eqn:E; [| reflexivity].
    apply includes_In in E. tauto. }
  rewrite collisionLoop_step, H0.
  change (Js.showCounter 1) with "1".
  rewrite collisionLoop_step, H1.
  change (Js.showCounter (Pos.succ 1)) with "2".
  now rewrite collisionLoop_step, H3.
Qed.

(** C1: with ActiveProfiles = ["Main"; "Main1"], a create request for "Main"
    (which the sanitizer leaves as it is) resolves to "Main12", not to
    "Main2": the loop appends each counter to the candidate it has built so
    far, not to the sanitized base. *)
Theorem createNewProfile_Main_Main1 {P : Platform} (w : World P) :
  SettingsManager.activeProfiles (settings w) = Some ["Main"; "Main1"] ->
  sanitizeFileName "Main" = "Main" ->
  let w' := createNewProfile (Some "Main") w in
  SettingsManager.loggedInProfile (settings w') = Some "Main12" /\
  SettingsManager.activeProfiles (settings w') =
    Some ["Main"; "Main1"; "Main12"] /\
  SettingsManager.loggedInProfile (settings w') <> Some "Main2".
Proof.
  intros Ha Hs. unfold createNewProfile. simpl.
  rewrite Ha, Hs.
  rewrite (@collisionLoop_second_collision ["Main"; "Main1"] "Main");
    simpl; [| tauto | tauto |].
  - repeat split. discriminate.
  - intros [H | [H | []]]; discriminate.
Qed.

Lemma createNewProfile_Main_Main1_witness :
  let w := Demo.world None (Some ["Main"; "Main1"]) None [] false None None in
  let w' := createNewProfile (Some "Main") w in
  SettingsManager.loggedInProfile (settings w') = Some "Main12" /\
  SettingsManager.activeProfiles (settings w') =
    Some ["Main"; "Main1"; "Main12"] /\
  SettingsManager.loggedInProfile (settings w') <> Some "Main2".
Proof.
  apply (@createNewProfile_Main_Main1 Demo.platform
           (Demo.world None (Some ["Main"; "Main1"]) None [] false None None));
    reflexivity.
Defined.

(** ** Switch *)

(** C8: for every id, member of ActiveProfiles or not, [logInProfile] stores
    LoggedInProfile = id and asks for a restart; ActiveProfiles, the
    DeleteProfile marker and the pending rename are as before. *)
Theorem logInProfile_frame {P : Platform} (w : World P) (id : string) :
  let w' := logInProfile id w in
  SettingsManager.loggedInProfile (settings w') = Some id /\
  restarts w' = S (restarts w) /\
  SettingsManager.activeProfiles (settings w') =
    SettingsManager.activeProfiles (settings w) /\
  SettingsManager.deleteProfile (settings w') =
    SettingsManager.deleteProfile (settings w) /\
  profileToRename w' = profileToRename w /\
  disk w' = disk w.
Proof.
  cbv zeta. unfold logInProfile, restartApp, save, withSettings. simpl.
  repeat split.
Qed.

(** ** Rename request *)

(** C7: once the active id is resolved (cached), a rename request whose
    target sanitizes to the empty string returns the world it was given:
    settings, disk, pending rename and restart count are all untouched. *)
Theorem renameProfile_rejects_empty {P : Platform} (w : World P)
        (newProfileId current : string) :
  loggedInUser w = Some current ->
  sanitizeFileName newProfileId = "" ->
  renameProfile newProfileId w = w.
Proof.
  intros Hc Hs. unfold renameProfile.
  rewrite (getLoggedInProfile_cached w Hc), Hs. reflexivity.
Qed.

Lemma renameProfile_rejects_empty_witness :
  let w := Demo.world (Some "A") (Some ["A"]) None ["/userdata/profiles/A"]
                      false (Some "A") None in
  renameProfile "<?>:*" w = w.
Proof.
  apply (@renameProfile_rejects_empty Demo.platform
           (Demo.world (Some "A") (Some ["A"]) None ["/userdata/profiles/A"]
                       false (Some "A") None) "<?>:*" "A");
    reflexivity.
Defined.

(** The pending target recorded by a request is not in ActiveProfiles. *)
Lemma renameProfile_target_fresh {P : Platform} (w : World P) (n : string) :
  sanitizeFileName n <> "" ->
  exists t, profileToRename (renameProfile n w) = Some t /\
            forall a, SettingsManager.activeProfiles
                        (settings (renameProfile n w)) = Some a -> ~ In t a.
Proof.
  intros Hs. unfold renameProfile.
  destruct (getLoggedInProfile w) as [cur w1].
  destruct (String.eqb_spec (sanitizeFileName n) "") as [He | _]; [tauto |].
  eexists. split; [reflexivity |].
  simpl. intros a Ha. rewrite Ha. apply collisionLoop_fresh.
Qed.

(** ** Delete apply *)

(** C6: without a DeleteProfile marker the delete apply phase returns the
    world unchanged; so a second run, made after the first one cleared the
    marker, changes nothing more. *)
Theorem handleProfileDeletion_no_marker {P : Platform} (w : World P) :
  (SettingsManager.deleteProfile (settings w) = None ->
   handleProfileDeletion w = w) /\
  (SettingsManager.deleteProfile (settings (handleProfileDeletion w)) = None ->
   handleProfileDeletion (handleProfileDeletion w) = handleProfileDeletion w).
Proof.
  assert (H : forall v : World P,
             SettingsManager.deleteProfile (settings v) = None ->
             handleProfileDeletion v = v).
  { intros v Hv. unfold handleProfileDeletion. simpl. now rewrite Hv. }
  split; [apply H | apply H].
Qed.

Lemma handleProfileDeletion_no_marker_witness :
  let quiet := Demo.world (Some "A") (Some ["A"; "B"]) None
                 ["/userdata/profiles/A"; "/userdata/profiles/B"] false None None in
  let marked := Demo.world (Some "A") (Some ["A"; "B"]) (Some "A")
                 ["/userdata/profiles/A"; "/userdata/profiles/B"] false None None in
  handleProfileDeletion quiet = quiet /\
  handleProfileDeletion (handleProfileDeletion marked) =
    handleProfileDeletion marked.
Proof.
  split.
  - apply (proj1 (@handleProfileDeletion_no_marker Demo.platform _)).
    reflexivity.
  - apply (proj2 (@handleProfileDeletion_no_marker Demo.platform _)).
    reflexivity.
Defined.

(** A run of the delete apply phase that gets through: marker and list are
    read, the directory removal returns. *)
Lemma handleProfileDeletion_done {P : Platform} (w : World P)
      (d : string) (a : list string) (dk : Disk) :
  SettingsManager.deleteProfile (settings w) = Some d ->
  SettingsManager.activeProfiles (settings w) = Some a ->
  deleteFolderRecursive (profilePath d) (disk w) = Done dk ->
  settings (handleProfileDeletion w) =
  SettingsManager.mkSettings (hd_error (removeFirst d a))
                             (Some (removeFirst d a)) None.
Proof.
  intros Hd Ha Hk. unfold handleProfileDeletion. simpl.
  rewrite Hd, Ha, Hk.
  destruct (indexOf_spec a d) as [[Hin Hpos] | [Hnin Hneg]].
  - destruct (Z.gtb_spec (Js.indexOf a d) (-1)) as [_ | Hle]; [| lia].
    rewrite (splice1_indexOf a d Hin).
    destruct (removeFirst d a) as [| first rest]; reflexivity.
  - rewrite Hneg. simpl.
    assert (Hsame : removeFirst d a = a).
    { clear - Hnin. induction a as [| y a IH]; simpl; [reflexivity |].
      destruct (String.eqb_spec y d) as [-> | Hne]; [simpl in Hnin; tauto |].
      f_equal. apply IH. simpl in Hnin. tauto. }
    rewrite Hsame.
    destruct a as [| first rest]; simpl; rewrite Ha; reflexivity.
Qed.

(** C2, as the code has it: with the DeleteProfile marker present, the
    marker is cleared exactly when the phase gets through (the directory
    removal returns and ActiveProfiles can be read); when the removal throws
    or the list is missing, the phase aborts and the marker stays. *)
Theorem handleProfileDeletion_marker {P : Platform} (w : World P) (d : string) :
  SettingsManager.deleteProfile (settings w) = Some d ->
  SettingsManager.deleteProfile (settings (handleProfileDeletion w)) =
  match deleteFolderRecursive (profilePath d) (disk w),
        SettingsManager.activeProfiles (settings w) with
  | Done _, Some _ => None
  | _, _ => Some d
  end.
Proof.
  intros Hd.
  destruct (deleteFolderRecursive (profilePath d) (disk w)) as [dk | dk] eqn:Hk.
  - destruct (SettingsManager.activeProfiles (settings w)) as [a |] eqn:Ha.
    + now rewrite (handleProfileDeletion_done w Hd Ha Hk).
    + unfold handleProfileDeletion. simpl. rewrite Hd, Ha, Hk. exact Hd.
  - unfold handleProfileDeletion. simpl. rewrite Hd, Hk. exact Hd.
Qed.

Lemma handleProfileDeletion_marker_witness :
  let w := Demo.world (Some "A") (Some ["A"; "B"]) (Some "A")
             ["/userdata/profiles/A"; "/userdata/profiles/B"] false None None in
  SettingsManager.deleteProfile (settings (handleProfileDeletion w)) = None.
Proof.
  apply (@handleProfileDeletion_marker Demo.platform
           (Demo.world (Some "A") (Some ["A"; "B"]) (Some "A")
              ["/userdata/profiles/A"; "/userdata/profiles/B"] false None None)
           "A").
  reflexivity.
Defined.

(** Two aborted runs with the marker present.  On a disk that refuses the
    removal, and on a store without the ActiveProfiles key, the marker
    DeleteProfile = "A" is still there after the phase; in the second run
    the directory of "A" is gone all the same. *)
Lemma handleProfileDeletion_abort_keeps_marker :
  let locked := Demo.world (Some "A") (Some ["A"; "B"]) (Some "A")
                  ["/userdata/profiles/A"; "/userdata/profiles/B"] true None None in
  let listless := Demo.world (Some "A") None (Some "A")
                  ["/userdata/profiles/A"] false None None in
  (SettingsManager.deleteProfile (settings locked) = Some "A" /\
   SettingsManager.deleteProfile (settings (handleProfileDeletion locked))
     = Some "A") /\
  (SettingsManager.deleteProfile (settings listless) = Some "A" /\
   SettingsManager.deleteProfile (settings (handleProfileDeletion listless))
     = Some "A" /\
   Demo.dirs (disk (handleProfileDeletion listless)) = []).
Proof.
  repeat split.
Qed.




(** ** Rename apply *)

Section RenameApply.

Context {P : Platform}.
Implicit Types w : World P.

(** The run in which the directory is renamed. *)
Lemma handleProfileRename_renamed w (cur new : string) (a : list string)
      (d : Disk) :
  profileToRename w = Some new ->
  new <> "" ->
  fst (getLoggedInProfile w) = Some cur ->
  SettingsManager.activeProfiles (settings w) = Some a ->
  renameSync (profilePath cur) (profilePath new) (disk w) = Some d ->
  settings (handleProfileRename w) =
    SettingsManager.mkSettings (Some new) (Some (replaceFirst cur new a))
      (SettingsManager.deleteProfile (settings w)) /\
  disk (handleProfileRename w) = d.
Proof.
  intros Hp Hne Hcur Ha Hr.
  pose proof (getLoggedInProfile_resolved w Hcur) as Hw.
  unfold handleProfileRename, hasProfileRename, getNewProfileName.
  rewrite Hp. simpl.
  destruct (getLoggedInProfile w) as [c w1]. simpl in Hcur, Hw. subst c w1.
  simpl. rewrite Hp, Ha.
  destruct (String.eqb_spec new "") as [He | _]; [tauto |].
  rewrite Hr. simpl. rewrite assign_indexOf. split; reflexivity.
Qed.

(** Every run of the phase is of one of three kinds: nothing is pending;
    the phase stops after the resolver; the directory is renamed. *)
Lemma handleProfileRename_cases w :
  handleProfileRename w = w \/
  handleProfileRename w = snd (getLoggedInProfile w) \/
  exists cur new a d,
    profileToRename w = Some new /\ new <> "" /\
    fst (getLoggedInProfile w) = Some cur /\
    SettingsManager.activeProfiles (settings w) = Some a /\
    renameSync (profilePath cur) (profilePath new) (disk w) = Some d.
Proof.
  unfold handleProfileRename, hasProfileRename, getNewProfileName.
  destruct (profileToRename w) as [new |] eqn:Hp; simpl; [| now left].
  pose proof (getLoggedInProfile_pending w) as Hpend.
  pose proof (getLoggedInProfile_resolved w) as Hres.
  destruct (getLoggedInProfile w) as [c w1]. simpl in Hpend, Hres.
  rewrite Hpend, Hp.
  destruct (SettingsManager.activeProfiles (settings w1))
    as [a |] eqn:Ha; [| right; now left].
  destruct c as [cur |]; [| right; now left].
  specialize (Hres cur eq_refl). subst w1. simpl in Ha.
  destruct (String.eqb_spec new "") as [He | Hne]; [right; now left |].
  destruct (renameSync (profilePath cur) (profilePath new)
                       (disk (withLoggedInUser (Some cur) w)))
    as [d |] eqn:Hr; [| right; now left].
  right. right. exists cur, new, a, d. simpl in Hr. now repeat split.
Qed.

Lemma handleProfileRename_pending w :
  profileToRename (handleProfileRename w) = profileToRename w.
Proof.
  unfold handleProfileRename, hasProfileRename, getNewProfileName.
  destruct (profileToRename w) as [new |] eqn:Hp; simpl; [| assumption].
  pose proof (getLoggedInProfile_pending w) as Hpend.
  destruct (getLoggedInProfile w) as [c w1]. simpl in Hpend.
  rewrite Hpend, Hp.
  destruct (SettingsManager.activeProfiles (settings w1));
    [| congruence].
  destruct c; [| congruence].
  destruct (String.eqb new ""); [congruence |].
  destruct (renameSync _ _ _); simpl; congruence.
Qed.

End RenameApply.

(** C3, as the code has it: the rename apply phase never touches the pending
    rename: whatever the run does, the field [profileToRename] holds after
    the phase what it held before. *)
Theorem handleProfileRename_keeps_marker {P : Platform} (w : World P) :
  profileToRename (handleProfileRename w) = profileToRename w.
Proof.
  apply handleProfileRename_pending.
Qed.

(** A pending rename of "A" to "B" that succeeds (the list and the directory
    are renamed), and one that fails on a read-only disk: in both the pending
    target "B" is still recorded when the phase is over. *)
Lemma handleProfileRename_marker_not_cleared :
  let w := Demo.world (Some "A") (Some ["A"]) None ["/userdata/profiles/A"]
             false None (Some "B") in
  let locked := Demo.world (Some "A") (Some ["A"]) None
                  ["/userdata/profiles/A"] true None (Some "B") in
  (profileToRename w = Some "B" /\
   SettingsManager.activeProfiles (settings (handleProfileRename w)) = Some ["B"] /\
   Demo.dirs (disk (handleProfileRename w)) = ["/userdata/profiles/B"] /\
   profileToRename (handleProfileRename w) = Some "B") /\
  (profileToRename locked = Some "B" /\
   SettingsManager.activeProfiles (settings (handleProfileRename locked))
     = Some ["A"] /\
   profileToRename (handleProfileRename locked) = Some "B").
Proof.
  repeat split.
Qed.

(** C4: when the phase reaches the directory rename (a target is pending and
    the resolver returns the current id) and [renameSync] throws, the stored
    settings, hence ActiveProfiles and LoggedInProfile, are those from before
    the attempt. *)
Theorem handleProfileRename_rename_fails {P : Platform} (w : World P)
        (cur new : string) :
  profileToRename w = Some new ->
  fst (getLoggedInProfile w) = Some cur ->
  renameSync (profilePath cur) (profilePath new) (disk w) = None ->
  SettingsManager.activeProfiles (settings (handleProfileRename w)) =
    SettingsManager.activeProfiles (settings w) /\
  SettingsManager.loggedInProfile (settings (handleProfileRename w)) =
    SettingsManager.loggedInProfile (settings w) /\
  settings (handleProfileRename w) = settings w /\
  disk (handleProfileRename w) = disk w.
Proof.
  intros Hp Hcur Hr.
  assert (H : settings (handleProfileRename w) = settings w /\
              disk (handleProfileRename w) = disk w).
  { destruct (handleProfileRename_cases w)
      as [E | [E | [c [n [a [d [Hp' [_ [Hc' [_ Hr']]]]]]]]]].
    - now rewrite E.
    - rewrite E, (getLoggedInProfile_resolved w Hcur). now split.
    - congruence. }
  destruct H as [Hs Hd]. rewrite Hs. now repeat split.
Qed.

Lemma handleProfileRename_rename_fails_witness :
  let w := Demo.world (Some "A") (Some ["A"; "B"]) None
             ["/userdata/profiles/A"; "/userdata/profiles/B"]
             false None (Some "B") in
  SettingsManager.activeProfiles (settings (handleProfileRename w)) =
    Some ["A"; "B"] /\
  SettingsManager.loggedInProfile (settings (handleProfileRename w)) =
    Some "A" /\
  settings (handleProfileRename w) = settings w /\
  disk (handleProfileRename w) = disk w.
Proof.
  apply (@handleProfileRename_rename_fails Demo.platform
           (Demo.world (Some "A") (Some ["A"; "B"]) None
              ["/userdata/profiles/A"; "/userdata/profiles/B"]
              false None (Some "B")) "A" "B");
    reflexivity.
Defined.

(** C10: when the directory rename succeeds and the current id is not in
    ActiveProfiles, [indexOf] yields [-1], the list keeps its elements, and
    LoggedInProfile is set to the new id all the same; so when the new id is
    not in the list either, LoggedInProfile ends up outside ActiveProfiles. *)
Theorem handleProfileRename_unlisted_current {P : Platform} (w : World P)
        (cur new : string) (a : list string) (d : Disk) :
  profileToRename w = Some new ->
  new <> "" ->
  fst (getLoggedInProfile w) = Some cur ->
  SettingsManager.activeProfiles (settings w) = Some a ->
  ~ In cur a ->
  renameSync (profilePath cur) (profilePath new) (disk w) = Some d ->
  let s' := settings (handleProfileRename w) in
  Js.indexOf a cur = (-1)%Z /\
  SettingsManager.activeProfiles s' = Some a /\
  SettingsManager.loggedInProfile s' = Some new /\
  (~ In new a ->
   exists a', SettingsManager.activeProfiles s' = Some a' /\
              SettingsManager.loggedInProfile s' = Some new /\
              ~ In new a').
Proof.
  intros Hp Hne Hcur Ha Hnin Hr s'. subst s'.
  destruct (handleProfileRename_renamed w Hp Hne Hcur Ha Hr) as [Hs _].
  rewrite Hs. simpl. rewrite (replaceFirst_absent cur new a Hnin).
  split; [now apply indexOf_absent |].
  split; [reflexivity |]. split; [reflexivity |].
  intros Hn. exists a. now repeat split.
Qed.

Lemma handleProfileRename_unlisted_current_witness :
  let w := Demo.world (Some "Ghost") (Some ["A"; "B"]) None
             ["/userdata/profiles/Ghost"] false None (Some "C") in
  let s' := settings (handleProfileRename w) in
  SettingsManager.activeProfiles s' = Some ["A"; "B"] /\
  SettingsManager.loggedInProfile s' = Some "C" /\
  exists a', SettingsManager.activeProfiles s' = Some a' /\
             SettingsManager.loggedInProfile s' = Some "C" /\
             ~ In "C" a'.
Proof.
  assert (Hghost : ~ In "Ghost" ["A"; "B"]).
  { simpl. intros [H | [H | []]]; discriminate. }
  assert (Hc : ~ In "C" ["A"; "B"]).
  { simpl. intros [H | [H | []]]; discriminate. }
  assert (Hne : "C" <> "") by discriminate.
  destruct (@handleProfileRename_unlisted_current Demo.platform
              (Demo.world (Some "Ghost") (Some ["A"; "B"]) None
                 ["/userdata/profiles/Ghost"] false None (Some "C"))
              "Ghost" "C" ["A"; "B"]
              (Demo.mkDisk ["/userdata/profiles/C"] false)
              eq_refl Hne eq_refl eq_refl Hghost eq_refl)
    as [_ [H1 [H2 H3]]].
  split; [exact H1 |]. split; [exact H2 |]. exact (H3 Hc).
Defined.

(** ** Duplicate ids *)

Section NoDuplicates.

Context {P : Platform}.
Implicit Types w : World P.

Lemma renameProfile_settings n w :
  settings (renameProfile n w) = settings (snd (getLoggedInProfile w)).
Proof.
  unfold renameProfile. destruct (getLoggedInProfile w) as [c w1]. simpl.
  destruct (String.eqb (sanitizeFileName n) ""); reflexivity.
Qed.



End NoDuplicates.




(** * Further properties *)

(** ** The collision loop, turn by turn *)

Lemma candidate_prefix (id : string) (c : positive) (k : nat) :
  exists t, candidate id c k = id ++ t.
Proof.
  revert id c. induction k as [| k IH]; intros id c; simpl.
  - exists "". induction id as [| ch id IHid]; simpl; [reflexivity |].
    now rewrite <- IHid.
  - destruct (IH (id ++ Js.showCounter c) (Pos.succ c)) as [t Ht].
    exists (Js.showCounter c ++ t). rewrite Ht.
    clear. induction id as [| ch id IHid]; simpl; [reflexivity |].
    now rewrite IHid.
Qed.

Lemma candidate_turns_bound (a : list string) (id : string) (c : positive)
      (k : nat) :
  (forall j, j < k -> In (candidate id c j) a) -> k <= longerCount a id.
Proof.
  revert id c. induction k as [| k IH]; intros id c Hin; [lia |].
  assert (H0 : In id a) by (apply (Hin 0); lia).
  apply includes_In in H0.
  pose proof (longerCount_decreases a id c H0) as Hdec.
  assert (Hk : k <= longerCount a (id ++ Js.showCounter c)).
  { apply IH with (c := Pos.succ c). intros j Hj. apply (Hin (S j)). lia. }
  lia.
Qed.

Lemma longerCount_le_length (a : list string) (id : string) :
  longerCount a id <= List.length a.
Proof.
  unfold longerCount. induction a as [| y a IH]; simpl; [lia |].
  destruct (Nat.leb (String.length id) (String.length y)); simpl; lia.
Qed.

Lemma collisionLoop_candidate (a : list string) (id : string) (c : positive) :
  exists k, collisionLoop a id c = candidate id c k /\
            (forall j, j < k -> In (candidate id c j) a) /\
            ~ In (candidate id c k) a.
Proof.
  funelim (collisionLoop a id c).
  - destruct H as [k [He [Hlt Hk]]].
    exists (S k). simpl. split; [exact He |]. split; [| exact Hk].
    intros [| j] Hj; simpl.
    + now apply includes_In.
    + apply Hlt. lia.
  - exists 0. simpl. split; [reflexivity |]. split; [intros j Hj; lia |].
    intros Hin. apply includes_In in Hin. congruence.
Qed.

(** X1: the loop stops at the first candidate that is not in the array,
    after at most as many turns as the array has elements; the id it
    returns starts with the id it was given. *)
Theorem collisionLoop_first_free (a : list string) (id : string) :
  exists k,
    k <= List.length a /\
    collisionLoop a id 1 = candidate id 1 k /\
    (forall j, j < k -> In (candidate id 1 j) a) /\
    ~ In (candidate id 1 k) a /\
    exists t, collisionLoop a id 1 = id ++ t.
Proof.
  destruct (collisionLoop_candidate a id 1) as [k [He [Hlt Hk]]].
  exists k. split.
  - pose proof (@candidate_turns_bound a id 1 k Hlt).
    pose proof (longerCount_le_length a id). lia.
  - repeat split; try assumption.
    rewrite He. apply candidate_prefix.
Qed.

(** ** Create *)

Lemma collisionLoop_free (a : list string) (id : string) (c : positive) :
  ~ In id a -> collisionLoop a id c = id.
Proof.
  intros Hn. rewrite collisionLoop_step.
  destruct (Js.includes a id) eqn:E; [| reflexivity].
  apply includes_In in E. tauto.
Qed.

Lemma createNewProfile_settings {P : Platform} (w : World P)
      (profileId : option string) :
  exists base,
    base = match profileId with
           | None => "Main"
           | Some p => if String.eqb p "" then "Main" else sanitizeFileName p
           end /\
    settings (createNewProfile profileId w) =
    SettingsManager.mkSettings
      (Some (collisionLoop (activeOrEmpty (settings w)) base 1))
      (Some (activeOrEmpty (settings w) ++
             [collisionLoop (activeOrEmpty (settings w)) base 1])%list)
      (SettingsManager.deleteProfile (settings w)).
Proof.
  eexists. split; reflexivity.
Qed.

(** X2: a create request appends exactly one id to the list it found, an id
    that was not in it, and leaves the ids that were there in place; the new
    id becomes LoggedInProfile and one restart is asked for.  No directory
    is made, the DeleteProfile marker, the cached id and a pending rename are
    as before. *)
Theorem createNewProfile_appends {P : Platform} (w : World P)
        (profileId : option string) :
  let w' := createNewProfile profileId w in
  exists id,
    ~ In id (activeOrEmpty (settings w)) /\
    SettingsManager.activeProfiles (settings w') =
      Some (activeOrEmpty (settings w) ++ [id])%list /\
    SettingsManager.loggedInProfile (settings w') = Some id /\
    SettingsManager.deleteProfile (settings w') =
      SettingsManager.deleteProfile (settings w) /\
    disk w' = disk w /\
    restarts w' = S (restarts w) /\
    loggedInUser w' = loggedInUser w /\
    profileToRename w' = profileToRename w.
Proof.
  cbv zeta.
  destruct (createNewProfile_settings w profileId) as [base [_ Hs]].
  exists (collisionLoop (activeOrEmpty (settings w)) base 1).
  split; [apply collisionLoop_fresh |].
  rewrite Hs. simpl. repeat split.
Qed.

(** X3: a create request for a non-empty name whose sanitized form is not in
    the list adds exactly the sanitized name, without suffix. *)
Theorem createNewProfile_free_name {P : Platform} (w : World P) (p : string) :
  p <> "" ->
  ~ In (sanitizeFileName p) (activeOrEmpty (settings w)) ->
  SettingsManager.activeProfiles (settings (createNewProfile (Some p) w)) =
    Some (activeOrEmpty (settings w) ++ [sanitizeFileName p])%list /\
  SettingsManager.loggedInProfile (settings (createNewProfile (Some p) w)) =
    Some (sanitizeFileName p).
Proof.
  intros Hp Hfree.
  destruct (createNewProfile_settings w (Some p)) as [base [Hb Hs]].
  destruct (String.eqb_spec p "") as [He | _]; [tauto |]. subst base.
  rewrite Hs, (@collisionLoop_free _ _ 1%positive Hfree). split; reflexivity.
Qed.

Lemma createNewProfile_free_name_witness :
  let w := Demo.world (Some "A") (Some ["A"]) None ["/userdata/profiles/A"]
             false None None in
  SettingsManager.activeProfiles
    (settings (createNewProfile (Some "Stream: night?") w)) =
    Some ["A"; "Stream night"] /\
  SettingsManager.loggedInProfile
    (settings (createNewProfile (Some "Stream: night?") w)) =
    Some "Stream night".
Proof.
  apply (@createNewProfile_free_name Demo.platform
           (Demo.world (Some "A") (Some ["A"]) None ["/userdata/profiles/A"]
                       false None None) "Stream: night?").
  - discriminate.
  - simpl. intros [H | []]. discriminate.
Defined.

(** X4: a create request without a name, or with the empty name, uses
    "Main" and never the sanitizer; when "Main" is free (as on a store that
    has no ActiveProfiles yet) the list becomes the old one followed by
    "Main" and LoggedInProfile is "Main". *)
Theorem createNewProfile_default {P : Platform} (w : World P)
        (profileId : option string) :
  profileId = None \/ profileId = Some "" ->
  ~ In "Main" (activeOrEmpty (settings w)) ->
  SettingsManager.activeProfiles (settings (createNewProfile profileId w)) =
    Some (activeOrEmpty (settings w) ++ ["Main"])%list /\
  SettingsManager.loggedInProfile (settings (createNewProfile profileId w)) =
    Some "Main".
Proof.
  intros Hp Hfree.
  destruct (createNewProfile_settings w profileId) as [base [Hb Hs]].
  assert (base = "Main") by (destruct Hp; subst; reflexivity). subst base.
  rewrite Hs, H, (@collisionLoop_free _ _ 1%positive Hfree). split; reflexivity.
Qed.

Lemma createNewProfile_default_witness :
  let w := Demo.world None None None [] false None None in
  SettingsManager.activeProfiles (settings (createNewProfile None w)) =
    Some ["Main"] /\
  SettingsManager.loggedInProfile (settings (createNewProfile None w)) =
    Some "Main".
Proof.
  apply (@createNewProfile_default Demo.platform
           (Demo.world None None None [] false None None) None).
  - now left.
  - simpl. tauto.
Defined.

(** X5: create does not reject a name that sanitizes to the empty string
    (the rename request does): the empty id is added to the list and becomes
    LoggedInProfile. *)
Theorem createNewProfile_empty_sanitized {P : Platform} (w : World P)
        (p : string) :
  p <> "" ->
  sanitizeFileName p = "" ->
  ~ In "" (activeOrEmpty (settings w)) ->
  SettingsManager.activeProfiles (settings (createNewProfile (Some p) w)) =
    Some (activeOrEmpty (settings w) ++ [""])%list /\
  SettingsManager.loggedInProfile (settings (createNewProfile (Some p) w)) =
    Some "".
Proof.
  intros Hp He Hfree.
  destruct (createNewProfile_settings w (Some p)) as [base [Hb Hs]].
  destruct (String.eqb_spec p "") as [Hp' | _]; [tauto |]. subst base.
  rewrite Hs, He, (@collisionLoop_free _ _ 1%positive Hfree). split; reflexivity.
Qed.

Lemma createNewProfile_empty_sanitized_witness :
  let w := Demo.world (Some "A") (Some ["A"]) None ["/userdata/profiles/A"]
             false None None in
  SettingsManager.activeProfiles (settings (createNewProfile (Some "<?>") w)) =
    Some ["A"; ""] /\
  SettingsManager.loggedInProfile (settings (createNewProfile (Some "<?>") w)) =
    Some "".
Proof.
  apply (@createNewProfile_empty_sanitized Demo.platform
           (Demo.world (Some "A") (Some ["A"]) None ["/userdata/profiles/A"]
                       false None None) "<?>").
  - discriminate.
  - reflexivity.
  - simpl. intros [H | []]. discriminate.
Defined.

Lemma append_one_neq (s : string) : s ++ "1" <> s.
Proof.
  intros H. apply (f_equal String.length) in H.
  rewrite string_length_append in H. simpl in H. lia.
Qed.

(** X6: two create requests for the same name, free at first, add the
    sanitized name and then the sanitized name followed by [1]. *)
Theorem createNewProfile_twice {P : Platform} (w : World P) (p : string) :
  p <> "" ->
  ~ In (sanitizeFileName p) (activeOrEmpty (settings w)) ->
  ~ In (sanitizeFileName p ++ "1") (activeOrEmpty (settings w)) ->
  let w2 := createNewProfile (Some p) (createNewProfile (Some p) w) in
  SettingsManager.activeProfiles (settings w2) =
    Some (activeOrEmpty (settings w) ++
          [sanitizeFileName p; (sanitizeFileName p ++ "1")%string])%list /\
  SettingsManager.loggedInProfile (settings w2) =
    Some (sanitizeFileName p ++ "1").
Proof.
  intros Hp Hfree Hfree1. cbv zeta.
  assert (H1 : settings (createNewProfile (Some p) w) =
               SettingsManager.mkSettings (Some (sanitizeFileName p))
                 (Some (activeOrEmpty (settings w) ++ [sanitizeFileName p])%list)
                 (SettingsManager.deleteProfile (settings w))).
  { destruct (createNewProfile_settings w (Some p)) as [base [Hb Hs]].
    destruct (String.eqb_spec p "") as [He | _]; [tauto |]. subst base.
    now rewrite Hs, (@collisionLoop_free _ _ 1%positive Hfree). }
  destruct (createNewProfile_settings (createNewProfile (Some p) w) (Some p))
    as [base [Hb Hs]].
  destruct (String.eqb_spec p "") as [He | _]; [tauto |]. subst base.
  assert (Hact : activeOrEmpty (settings (createNewProfile (Some p) w)) =
                 (activeOrEmpty (settings w) ++ [sanitizeFileName p])%list)
    by now rewrite H1.
  rewrite Hs, !Hact. simpl.
  set (a := activeOrEmpty (settings w)) in *.
  set (s := sanitizeFileName p) in *.
  assert (Hin : Js.includes (a ++ [s])%list s = true).
  { apply includes_In. apply in_or_app. right. now left. }
  assert (Hfr : ~ In (s ++ "1") (a ++ [s])%list).
  { intros H. apply in_app_or in H. destruct H as [H | [H | []]]; [tauto |].
    symmetry in H. now apply append_one_neq in H. }
  rewrite collisionLoop_step, Hin.
  change (Js.showCounter 1) with "1".
  rewrite (@collisionLoop_free _ _ (Pos.succ 1) Hfr).
  rewrite <- app_assoc. split; reflexivity.
Qed.

Lemma createNewProfile_twice_witness :
  let w := Demo.world (Some "A") (Some ["A"]) None ["/userdata/profiles/A"]
             false None None in
  let w2 := createNewProfile (Some "B") (createNewProfile (Some "B") w) in
  SettingsManager.activeProfiles (settings w2) = Some ["A"; "B"; "B1"] /\
  SettingsManager.loggedInProfile (settings w2) = Some "B1".
Proof.
  apply (@createNewProfile_twice Demo.platform
           (Demo.world (Some "A") (Some ["A"]) None ["/userdata/profiles/A"]
                       false None None) "B").
  - discriminate.
  - simpl. intros [H | []]. discriminate.
  - simpl. intros [H | []]. discriminate.
Defined.

(** ** The resolver *)

(** X7: [getLoggedInProfile] returns [undefined] exactly when no id is
    cached and the LoggedInProfile key is absent.  In that case it has asked
    for exactly one restart, the cache is still empty and the disk is
    untouched; otherwise it asks for no restart, changes neither settings nor
    disk, and the id it returns is cached afterwards. *)
Theorem getLoggedInProfile_outcome {P : Platform} (w : World P) :
  let r := fst (getLoggedInProfile w) in
  let w' := snd (getLoggedInProfile w) in
  (r = None <->
   loggedInUser w = None /\
   SettingsManager.loggedInProfile (settings w) = None) /\
  disk w' = disk w /\
  match r with
  | None => restarts w' = S (restarts w) /\ loggedInUser w' = None
  | Some u => restarts w' = restarts w /\ settings w' = settings w /\
              loggedInUser w' = Some u
  end.
Proof.
  cbv zeta. unfold getLoggedInProfile.
  destruct (loggedInUser w) as [u |] eqn:Hu; simpl.
  - split; [split; [discriminate | intros [H _]; discriminate] |].
    now repeat split.
  - destruct (SettingsManager.loggedInProfile (settings w)) as [u |] eqn:Hs;
      simpl.
    + split; [split; [discriminate | intros [_ H]; discriminate] |].
      now repeat split.
    + destruct (globalSettingsDb w) as [[| first rest] |]; simpl;
        now repeat split.
Qed.

(** X8: once the resolver has returned an id, calling it again returns the
    same id and changes nothing. *)
Theorem getLoggedInProfile_again {P : Platform} (w : World P) (u : string) :
  fst (getLoggedInProfile w) = Some u ->
  getLoggedInProfile (snd (getLoggedInProfile w)) =
    (Some u, snd (getLoggedInProfile w)).
Proof.
  intros H. rewrite (getLoggedInProfile_resolved w H).
  now apply getLoggedInProfile_cached.
Qed.

Lemma getLoggedInProfile_again_witness :
  let w := Demo.world (Some "A") (Some ["A"]) None ["/userdata/profiles/A"]
             false None None in
  getLoggedInProfile (snd (getLoggedInProfile w)) =
    (Some "A", snd (getLoggedInProfile w)).
Proof.
  apply (@getLoggedInProfile_again Demo.platform
           (Demo.world (Some "A") (Some ["A"]) None ["/userdata/profiles/A"]
                       false None None) "A").
  reflexivity.
Defined.

(** X9: the cache is not refreshed by a switch or a create.  With an id
    cached, the resolver keeps returning it after [logInProfile] or
    [createNewProfile] stored another LoggedInProfile: the change only shows
    in a new process. *)
Theorem getLoggedInProfile_stale {P : Platform} (w : World P)
        (u id : string) (name : option string) :
  loggedInUser w = Some u ->
  fst (getLoggedInProfile (logInProfile id w)) = Some u /\
  SettingsManager.loggedInProfile (settings (logInProfile id w)) = Some id /\
  fst (getLoggedInProfile (createNewProfile name w)) = Some u /\
  fst (getLoggedInProfile (newProcess (logInProfile id w))) = Some id.
Proof.
  intros Hu. repeat split.
  - now rewrite (@getLoggedInProfile_cached _ (logInProfile id w) u).
  - now rewrite (@getLoggedInProfile_cached _ (createNewProfile name w) u).
Qed.

Lemma getLoggedInProfile_stale_witness :
  let w := Demo.world (Some "A") (Some ["A"; "B"]) None
             ["/userdata/profiles/A"] false (Some "A") None in
  fst (getLoggedInProfile (logInProfile "B" w)) = Some "A" /\
  SettingsManager.loggedInProfile (settings (logInProfile "B" w)) = Some "B" /\
  fst (getLoggedInProfile (createNewProfile (Some "C") w)) = Some "A" /\
  fst (getLoggedInProfile (newProcess (logInProfile "B" w))) = Some "B".
Proof.
  apply (@getLoggedInProfile_stale Demo.platform
           (Demo.world (Some "A") (Some ["A"; "B"]) None
              ["/userdata/profiles/A"] false (Some "A") None)
           "A" "B" (Some "C")).
  reflexivity.
Defined.

(** ** Rename request *)

Lemma append_empty_inv (s t : string) : s ++ t = "" -> s = "".
Proof.
  destruct s; simpl; [reflexivity | discriminate].
Qed.

(** X10: a rename request that is accepted (the id is resolved and the
    sanitized target is not empty) changes neither settings nor disk, asks
    for one restart and records a pending target that is not empty, starts
    with the sanitized name and is not in ActiveProfiles.  In particular a
    request for a name that is already in the list, such as the profile's own
    name, records a different, suffixed target. *)
Theorem renameProfile_accepted {P : Platform} (w : World P)
        (newProfileId cur : string) :
  fst (getLoggedInProfile w) = Some cur ->
  sanitizeFileName newProfileId <> "" ->
  let w' := renameProfile newProfileId w in
  settings w' = settings w /\
  disk w' = disk w /\
  restarts w' = S (restarts w) /\
  exists target suffix,
    profileToRename w' = Some target /\
    target = sanitizeFileName newProfileId ++ suffix /\
    target <> "" /\
    ~ In target (activeOrEmpty (settings w)) /\
    (In (sanitizeFileName newProfileId) (activeOrEmpty (settings w)) ->
     target <> sanitizeFileName newProfileId).
Proof.
  intros Hcur Hs. cbv zeta.
  pose proof (getLoggedInProfile_resolved w Hcur) as Hw.
  unfold renameProfile.
  destruct (getLoggedInProfile w) as [c w1]. simpl in Hw. subst w1.
  destruct (String.eqb_spec (sanitizeFileName newProfileId) "") as [He | _];
    [tauto |].
  simpl. repeat split.
  change (match SettingsManager.activeProfiles (settings w) with
          | Some a => a
          | None => []
          end) with (activeOrEmpty (settings w)).
  set (a := activeOrEmpty (settings w)).
  destruct (collisionLoop_candidate a (sanitizeFileName newProfileId) 1)
    as [k [Hk _]].
  destruct (candidate_prefix (sanitizeFileName newProfileId) 1 k) as [t Ht].
  rewrite <- Hk in Ht.
  exists (collisionLoop a (sanitizeFileName newProfileId) 1), t.
  split; [reflexivity |]. split; [exact Ht |].
  pose proof (collisionLoop_fresh a (sanitizeFileName newProfileId) 1) as Hf.
  split; [| split; [exact Hf |]].
  - rewrite Ht. intros H. apply append_empty_inv in H. tauto.
  - intros Hin He. rewrite He in Hf. tauto.
Qed.

Lemma renameProfile_accepted_witness :
  let w := Demo.world (Some "A") (Some ["A"; "B"]) None
             ["/userdata/profiles/A"] false None None in
  let w' := renameProfile "A" w in
  settings w' = settings w /\
  disk w' = disk w /\
  restarts w' = 1 /\
  profileToRename w' = Some "A1".
Proof.
  destruct (@renameProfile_accepted Demo.platform
              (Demo.world (Some "A") (Some ["A"; "B"]) None
                 ["/userdata/profiles/A"] false None None) "A" "A"
              eq_refl ltac:(discriminate))
    as [H1 [H2 [H3 _]]].
  split; [exact H1 |]. split; [exact H2 |]. split; [exact H3 | reflexivity].
Defined.

(** ** Rename apply, when it renames *)

Lemma replaceFirst_length (x v : string) (a : list string) :
  List.length (replaceFirst x v a) = List.length a.
Proof.
  induction a as [| y a IH]; simpl; [reflexivity |].
  destruct (String.eqb y x); simpl; [reflexivity | now rewrite IH].
Qed.

Lemma replaceFirst_at (x v : string) (a : list string) :
  In x a ->
  nth_error (replaceFirst x v a) (Z.to_nat (Js.indexOf a x)) = Some v.
Proof.
  induction a as [| y a IH]; simpl; [tauto |].
  intros Hin. destruct (String.eqb_spec y x) as [-> | Hne]; [reflexivity |].
  destruct Hin as [H | Hin]; [congruence |].
  pose proof (indexOf_present a x Hin) as Hpos.
  destruct (Z.ltb_spec (Js.indexOf a x) 0); [lia |].
  replace (Z.to_nat (Js.indexOf a x + 1)) with (S (Z.to_nat (Js.indexOf a x)))
    by lia.
  simpl. now apply IH.
Qed.

Lemma replaceFirst_others (x v y : string) (a : list string) :
  y <> x -> In y a -> In y (replaceFirst x v a).
Proof.
  intros Hne. induction a as [| z a IH]; simpl; [tauto |].
  destruct (String.eqb_spec z x) as [-> | Hzx]; simpl.
  - intros [H | H]; [congruence | now right].
  - intros [H | H]; [now left | right; now apply IH].
Qed.

Lemma replaceFirst_gone (x v : string) (a : list string) :
  NoDup a -> v <> x -> ~ In x (replaceFirst x v a).
Proof.
  intros Hnd Hv. induction a as [| z a IH]; simpl; [tauto |].
  inversion Hnd as [| ? ? Hz Hnd']; subst.
  destruct (String.eqb_spec z x) as [-> | Hzx]; simpl.
  - intros [H | H]; [congruence | tauto].
  - intros [H | H]; [congruence | now apply IH].
Qed.

(** X11: when the rename apply phase renames the directory of a current id
    that is in ActiveProfiles, the new id is written at the position the old
    one had: the list keeps its length and its other ids, on a duplicate-free
    list the old id is gone, LoggedInProfile is the new id and a member of
    the list, and the DeleteProfile marker is as before. *)
Theorem handleProfileRename_replaces {P : Platform} (w : World P)
        (cur new : string) (a : list string) (d : Disk) :
  profileToRename w = Some new ->
  new <> "" ->
  fst (getLoggedInProfile w) = Some cur ->
  SettingsManager.activeProfiles (settings w) = Some a ->
  In cur a ->
  renameSync (profilePath cur) (profilePath new) (disk w) = Some d ->
  let w' := handleProfileRename w in
  exists a',
    SettingsManager.activeProfiles (settings w') = Some a' /\
    List.length a' = List.length a /\
    nth_error a' (Z.to_nat (Js.indexOf a cur)) = Some new /\
    (forall x, x <> cur -> In x a -> In x a') /\
    (forall x, In x a' -> x = new \/ In x a) /\
    (NoDup a -> new <> cur -> ~ In cur a') /\
    SettingsManager.loggedInProfile (settings w') = Some new /\
    SettingsManager.deleteProfile (settings w') =
      SettingsManager.deleteProfile (settings w) /\
    disk w' = d.
Proof.
  intros Hp Hne Hcur Ha Hin Hr. cbv zeta.
  destruct (handleProfileRename_renamed w Hp Hne Hcur Ha Hr) as [Hs Hd].
  rewrite Hs, Hd. simpl. exists (replaceFirst cur new a).
  split; [reflexivity |].
  split; [apply replaceFirst_length |].
  split; [now apply replaceFirst_at |].
  split; [intros x Hx; now apply replaceFirst_others |].
  split; [intros x; apply replaceFirst_In |].
  split; [intros Hnd Hnc; now apply replaceFirst_gone |].
  now repeat split.
Qed.

Lemma handleProfileRename_replaces_witness :
  let w := Demo.world (Some "B") (Some ["A"; "B"; "C"]) None
             ["/userdata/profiles/B"] false None (Some "D") in
  SettingsManager.activeProfiles (settings (handleProfileRename w)) =
    Some ["A"; "D"; "C"] /\
  SettingsManager.loggedInProfile (settings (handleProfileRename w)) =
    Some "D" /\
  Demo.dirs (disk (handleProfileRename w)) = ["/userdata/profiles/D"].
Proof.
  destruct (@handleProfileRename_replaces Demo.platform
              (Demo.world (Some "B") (Some ["A"; "B"; "C"]) None
                 ["/userdata/profiles/B"] false None (Some "D"))
              "B" "D" ["A"; "B"; "C"]
              (Demo.mkDisk ["/userdata/profiles/D"] false)
              eq_refl ltac:(discriminate) eq_refl eq_refl
              ltac:(simpl; tauto) eq_refl)
    as [a' [_ [_ [_ [_ [_ [_ [H1 [_ H2]]]]]]]]].
  split; [reflexivity |]. split; [exact H1 |]. now rewrite H2.
Defined.

(** X12: after the rename apply phase has renamed the directory, the
    resolver of the same process still returns the old id, the one it cached
    at the start of the phase, although LoggedInProfile now holds the new
    id. *)
Theorem handleProfileRename_stale_cache {P : Platform} (w : World P)
        (cur new : string) (a : list string) (d : Disk) :
  profileToRename w = Some new ->
  new <> "" ->
  fst (getLoggedInProfile w) = Some cur ->
  SettingsManager.activeProfiles (settings w) = Some a ->
  renameSync (profilePath cur) (profilePath new) (disk w) = Some d ->
  loggedInUser (handleProfileRename w) = Some cur /\
  fst (getLoggedInProfile (handleProfileRename w)) = Some cur /\
  SettingsManager.loggedInProfile (settings (handleProfileRename w)) =
    Some new.
Proof.
  intros Hp Hne Hcur Ha Hr.
  destruct (handleProfileRename_renamed w Hp Hne Hcur Ha Hr) as [Hs _].
  assert (Hu : loggedInUser (handleProfileRename w) = Some cur).
  { pose proof (getLoggedInProfile_resolved w Hcur) as Hw.
    unfold handleProfileRename, hasProfileRename, getNewProfileName.
    rewrite Hp. simpl.
    destruct (getLoggedInProfile w) as [c w1]. simpl in Hcur, Hw.
    subst c w1. simpl. rewrite Hp, Ha.
    destruct (String.eqb_spec new "") as [He | _]; [tauto |].
    rewrite Hr. reflexivity. }
  split; [exact Hu |].
  split; [now rewrite (getLoggedInProfile_cached _ Hu) |].
  now rewrite Hs.
Qed.

Lemma handleProfileRename_stale_cache_witness :
  let w := Demo.world (Some "A") (Some ["A"]) None ["/userdata/profiles/A"]
             false None (Some "B") in
  loggedInUser (handleProfileRename w) = Some "A" /\
  fst (getLoggedInProfile (handleProfileRename w)) = Some "A" /\
  SettingsManager.loggedInProfile (settings (handleProfileRename w)) =
    Some "B".
Proof.
  apply (@handleProfileRename_stale_cache Demo.platform
           (Demo.world (Some "A") (Some ["A"]) None ["/userdata/profiles/A"]
              false None (Some "B"))
           "A" "B" ["A"] (Demo.mkDisk ["/userdata/profiles/B"] false));
    try reflexivity.
  discriminate.
Defined.

(** X13: a pending rename does not survive the restart it asks for.  In a
    new process the rename apply phase does nothing, so a rename request
    followed by the restart and the apply phase leaves settings and disk as
    the resolver of the request left them: nothing is renamed. *)
Theorem renameProfile_lost_on_restart {P : Platform} (w : World P)
        (newProfileId : string) :
  handleProfileRename (newProcess w) = newProcess w /\
  handleProfileRename (newProcess (renameProfile newProfileId w)) =
    newProcess (snd (getLoggedInProfile w)) /\
  disk (handleProfileRename (newProcess (renameProfile newProfileId w))) =
    disk w.
Proof.
  assert (H : newProcess (renameProfile newProfileId w) =
              newProcess (snd (getLoggedInProfile w))).
  { unfold renameProfile. destruct (getLoggedInProfile w) as [c w1]. simpl.
    destruct (String.eqb (sanitizeFileName newProfileId) ""); reflexivity. }
  split; [reflexivity |]. rewrite H. split; [reflexivity |].
  change (disk (snd (getLoggedInProfile w)) = disk w).
  unfold getLoggedInProfile.
  destruct (loggedInUser w); [reflexivity |].
  destruct (SettingsManager.getSetting LoggedInProfile (settings w));
    [reflexivity |].
  destruct (globalSettingsDb w) as [[| first rest] |]; reflexivity.
Qed.

(** ** Delete: request, restart, apply *)

Lemma getLoggedInProfile_disk {P : Platform} (w : World P) :
  disk (snd (getLoggedInProfile w)) = disk w.
Proof.
  unfold getLoggedInProfile.
  destruct (loggedInUser w); [reflexivity |].
  destruct (SettingsManager.getSetting LoggedInProfile (settings w));
    [reflexivity |].
  destruct (globalSettingsDb w) as [[| first rest] |]; reflexivity.
Qed.

Lemma deleteProfile_resolved {P : Platform} (w : World P) (cur : string) :
  fst (getLoggedInProfile w) = Some cur ->
  deleteProfile w =
  restartApp (save DeleteProfile cur (withLoggedInUser (Some cur) w)).
Proof.
  intros Hcur. pose proof (getLoggedInProfile_resolved w Hcur) as Hw.
  unfold deleteProfile. destruct (getLoggedInProfile w) as [c w1].
  simpl in Hcur, Hw. now subst c w1.
Qed.

(** X14: the delete request only records the marker: with the id resolved,
    DeleteProfile is the current id, ActiveProfiles, LoggedInProfile and the
    disk are as before, and one restart is asked for.  When the apply phase
    of the next process then gets through, the current profile's entry is
    out of the list, LoggedInProfile is the first id left (absent when none
    is left), the marker is cleared and the disk is the one the removal
    left. *)
Theorem deleteProfile_then_apply {P : Platform} (w : World P)
        (cur : string) (a : list string) (dk : Disk) :
  fst (getLoggedInProfile w) = Some cur ->
  SettingsManager.activeProfiles (settings w) = Some a ->
  deleteFolderRecursive (profilePath cur) (disk w) = Done dk ->
  (settings (deleteProfile w) =
     SettingsManager.mkSettings
       (SettingsManager.loggedInProfile (settings w)) (Some a) (Some cur) /\
   disk (deleteProfile w) = disk w /\
   restarts (deleteProfile w) = S (restarts w)) /\
  (settings (handleProfileDeletion (newProcess (deleteProfile w))) =
     SettingsManager.mkSettings (hd_error (removeFirst cur a))
                                (Some (removeFirst cur a)) None /\
   disk (handleProfileDeletion (newProcess (deleteProfile w))) = dk /\
   (NoDup a -> ~ In cur (removeFirst cur a))).
Proof.
  intros Hcur Ha Hk. rewrite (deleteProfile_resolved w Hcur).
  split.
  - simpl. rewrite Ha. now repeat split.
  - set (v := newProcess _).
    assert (Hd : SettingsManager.deleteProfile (settings v) = Some cur)
      by reflexivity.
    assert (Ha' : SettingsManager.activeProfiles (settings v) = Some a)
      by exact Ha.
    assert (Hk' : deleteFolderRecursive (profilePath cur) (disk v) = Done dk)
      by exact Hk.
    split; [exact (handleProfileDeletion_done v Hd Ha' Hk') |].
    split.
    + unfold handleProfileDeletion. simpl. rewrite Ha.
      change (disk v) with (disk w). rewrite Hk.
      destruct (Js.indexOf a cur >? -1)%Z;
        [destruct (Js.splice1 a (Js.indexOf a cur)) | destruct a];
        reflexivity.
    + intros Hnd. now apply removeFirst_NoDup.
Qed.

Lemma deleteProfile_then_apply_witness :
  let w := Demo.world (Some "A") (Some ["A"; "B"]) None
             ["/userdata/profiles/A"; "/userdata/profiles/B"]
             false None None in
  settings (deleteProfile w) =
    SettingsManager.mkSettings (Some "A") (Some ["A"; "B"]) (Some "A") /\
  settings (handleProfileDeletion (newProcess (deleteProfile w))) =
    SettingsManager.mkSettings (Some "B") (Some ["B"]) None /\
  Demo.dirs (disk (handleProfileDeletion (newProcess (deleteProfile w)))) =
    ["/userdata/profiles/B"].
Proof.
  destruct (@deleteProfile_then_apply Demo.platform
              (Demo.world (Some "A") (Some ["A"; "B"]) None
                 ["/userdata/profiles/A"; "/userdata/profiles/B"]
                 false None None)
              "A" ["A"; "B"] (Demo.mkDisk ["/userdata/profiles/B"] false)
              eq_refl eq_refl eq_refl)
    as [[H1 _] [H2 [H3 _]]].
  split; [exact H1 |]. split; [exact H2 |]. now rewrite H3.
Defined.

Lemma removeFirst_absent (x : string) (a : list string) :
  ~ In x a -> removeFirst x a = a.
Proof.
  induction a as [| y a IH]; simpl; [reflexivity |].
  intros H. destruct (String.eqb_spec y x) as [-> | Hne]; [tauto |].
  f_equal. apply IH. tauto.
Qed.

(** X15: when the marked id is not in ActiveProfiles, a delete apply that
    gets through leaves the list as it is but still re-points
    LoggedInProfile to the first id of the list (or drops the key when the
    list is empty) and clears the marker. *)
Theorem handleProfileDeletion_unlisted {P : Platform} (w : World P)
        (d : string) (a : list string) (dk : Disk) :
  SettingsManager.deleteProfile (settings w) = Some d ->
  SettingsManager.activeProfiles (settings w) = Some a ->
  ~ In d a ->
  deleteFolderRecursive (profilePath d) (disk w) = Done dk ->
  Js.indexOf a d = (-1)%Z /\
  settings (handleProfileDeletion w) =
    SettingsManager.mkSettings (hd_error a) (Some a) None.
Proof.
  intros Hd Ha Hn Hk. split; [now apply indexOf_absent |].
  rewrite (handleProfileDeletion_done w Hd Ha Hk).
  now rewrite (removeFirst_absent d a Hn).
Qed.

Lemma handleProfileDeletion_unlisted_witness :
  let w := Demo.world (Some "B") (Some ["A"; "B"]) (Some "Ghost")
             ["/userdata/profiles/A"; "/userdata/profiles/B"]
             false None None in
  settings (handleProfileDeletion w) =
    SettingsManager.mkSettings (Some "A") (Some ["A"; "B"]) None.
Proof.
  apply (@handleProfileDeletion_unlisted Demo.platform
           (Demo.world (Some "B") (Some ["A"; "B"]) (Some "Ghost")
              ["/userdata/profiles/A"; "/userdata/profiles/B"]
              false None None)
           "Ghost" ["A"; "B"]
           (Demo.mkDisk ["/userdata/profiles/A"; "/userdata/profiles/B"] false)
           eq_refl eq_refl).
  - simpl. intros [H | [H | []]]; discriminate.
  - reflexivity.
Defined.

Lemma removeFirst_length (x : string) (a : list string) :
  List.length (removeFirst x a) <= List.length a /\
  List.length a <= S (List.length (removeFirst x a)).
Proof.
  induction a as [| y a IH]; simpl; [lia |].
  destruct (String.eqb y x); simpl; lia.
Qed.

Lemma handleProfileDeletion_memory {P : Platform} (w : World P) :
  restarts (handleProfileDeletion w) = restarts w /\
  loggedInUser (handleProfileDeletion w) = loggedInUser w /\
  profileToRename (handleProfileDeletion w) = profileToRename w /\
  globalSettingsDb (handleProfileDeletion w) = globalSettingsDb w.
Proof.
  unfold handleProfileDeletion. simpl.
  destruct (SettingsManager.deleteProfile (settings w)) as [d |];
    [| now repeat split].
  destruct (deleteFolderRecursive _ _); [| now repeat split].
  destruct (SettingsManager.activeProfiles (settings w)) as [a |];
    [| now repeat split].
  destruct (Js.indexOf a d >? -1)%Z;
    [destruct (Js.splice1 a (Js.indexOf a d)) | destruct a];
    now repeat split.
Qed.

(** X16: whatever run the delete apply phase takes, it asks for no restart
    and leaves the cached id, a pending rename and the bootstrap list alone;
    it never adds an id to ActiveProfiles and removes at most one entry, and
    it never creates or deletes the ActiveProfiles key. *)
Theorem handleProfileDeletion_frame {P : Platform} (w : World P) :
  let w' := handleProfileDeletion w in
  restarts w' = restarts w /\
  loggedInUser w' = loggedInUser w /\
  profileToRename w' = profileToRename w /\
  globalSettingsDb w' = globalSettingsDb w /\
  match SettingsManager.activeProfiles (settings w),
        SettingsManager.activeProfiles (settings w') with
  | Some a, Some a' =>
      (forall x, In x a' -> In x a) /\
      List.length a' <= List.length a <= S (List.length a')
  | None, None => True
  | _, _ => False
  end.
Proof.
  cbv zeta.
  pose proof (handleProfileDeletion_memory w) as Hmem.
  destruct Hmem as [H1 [H2 [H3 H4]]]. repeat split; try assumption.
  destruct (SettingsManager.deleteProfile (settings w)) as [d |] eqn:Hd.
  - destruct (deleteFolderRecursive (profilePath d) (disk w))
      as [dk | dk] eqn:Hk.
    + destruct (SettingsManager.activeProfiles (settings w)) as [a |] eqn:Ha.
      * rewrite (handleProfileDeletion_done w Hd Ha Hk). simpl.
        split; [intros x; apply removeFirst_In | apply removeFirst_length].
      * unfold handleProfileDeletion. simpl. rewrite Hd, Ha, Hk. simpl.
        now rewrite Ha.
    + unfold handleProfileDeletion. simpl. rewrite Hd, Hk. simpl.
      destruct (SettingsManager.activeProfiles (settings w)); [| exact I].
      split; [tauto | lia].
  - unfold handleProfileDeletion. simpl. rewrite Hd.
    destruct (SettingsManager.activeProfiles (settings w)); [| exact I].
    split; [tauto | lia].
Qed.

(** X17: deleting the only profile and then resolving the identity in the
    new process.  The apply phase empties the list and drops
    LoggedInProfile, so the resolver takes the bootstrap path: without a
    bootstrap list it creates "Main"; with one it logs in its first id
    without adding it to ActiveProfiles, which stays empty.  Either way it
    returns no id and asks for a restart. *)
Theorem delete_last_then_resolve {P : Platform} (w : World P)
        (d : string) (dk : Disk) :
  loggedInUser w = None ->
  SettingsManager.deleteProfile (settings w) = Some d ->
  SettingsManager.activeProfiles (settings w) = Some [d] ->
  deleteFolderRecursive (profilePath d) (disk w) = Done dk ->
  let r := getLoggedInProfile (handleProfileDeletion w) in
  settings (handleProfileDeletion w) =
    SettingsManager.mkSettings None (Some []) None /\
  fst r = None /\
  restarts (snd r) = S (restarts w) /\
  settings (snd r) =
    match globalSettingsDb w with
    | None => SettingsManager.mkSettings (Some "Main") (Some ["Main"]) None
    | Some (first :: _) => SettingsManager.mkSettings (Some first) (Some []) None
    | Some [] => SettingsManager.mkSettings None (Some []) None
    end.
Proof.
  intros Hu Hd Ha Hk. cbv zeta.
  pose proof (handleProfileDeletion_done w Hd Ha Hk) as Hs.
  simpl in Hs. rewrite String.eqb_refl in Hs. simpl in Hs.
  destruct (handleProfileDeletion_memory w) as [Hr [Hc [_ Hdb]]].
  split; [exact Hs |].
  unfold getLoggedInProfile. rewrite Hc, Hu.
  unfold SettingsManager.getSetting. rewrite Hs.
  cbn [SettingsManager.loggedInProfile]. rewrite Hdb.
  destruct (globalSettingsDb w) as [[| first rest] |]; cbn [fst snd].
  - split; [reflexivity |].
    unfold restartApp, saveUndefined, drop, withSettings. simpl.
    rewrite Hs, Hr. now split.
  - split; [reflexivity |].
    unfold logInProfile, restartApp, save, withSettings. simpl.
    rewrite Hs, Hr. now split.
  - split; [reflexivity |].
    split; [change (restarts (createNewProfile None (handleProfileDeletion w)))
              with (S (restarts (handleProfileDeletion w))); now rewrite Hr |].
    destruct (createNewProfile_settings (handleProfileDeletion w) None)
      as [base [Hb Hcs]].
    subst base. rewrite Hcs. unfold activeOrEmpty. rewrite Hs. simpl.
    rewrite (@collisionLoop_free [] "Main" 1%positive); [reflexivity |].
    simpl. tauto.
Qed.

Lemma delete_last_then_resolve_witness :
  let w := Demo.world (Some "Solo") (Some ["Solo"]) (Some "Solo")
             ["/userdata/profiles/Solo"] false None None in
  settings (handleProfileDeletion w) =
    SettingsManager.mkSettings None (Some []) None /\
  fst (getLoggedInProfile (handleProfileDeletion w)) = None /\
  settings (snd (getLoggedInProfile (handleProfileDeletion w))) =
    SettingsManager.mkSettings (Some "Main") (Some ["Main"]) None.
Proof.
  destruct (@delete_last_then_resolve Demo.platform
              (Demo.world (Some "Solo") (Some ["Solo"]) (Some "Solo")
                 ["/userdata/profiles/Solo"] false None None)
              "Solo" (Demo.mkDisk [] false) eq_refl eq_refl eq_refl eq_refl)
    as [H1 [H2 [_ H3]]].
  split; [exact H1 |]. split; [exact H2 | exact H3].
Defined.

(** ** Requests to a running process *)

Section Requests.

Context {P : Platform}.
Implicit Types w : World P.

Lemma activeOrEmpty_createNewProfile (id : option string) w :
  exists x, activeOrEmpty (settings (createNewProfile id w)) =
            (activeOrEmpty (settings w) ++ [x])%list.
Proof.
  destruct (createNewProfile_settings w id) as [base [_ Hs]].
  rewrite Hs. eexists. reflexivity.
Qed.

Lemma getLoggedInProfile_active w :
  exists ext, activeOrEmpty (settings (snd (getLoggedInProfile w))) =
              (activeOrEmpty (settings w) ++ ext)%list.
Proof.
  unfold getLoggedInProfile.
  destruct (loggedInUser w);
    [exists []; now rewrite app_nil_r |].
  destruct (SettingsManager.getSetting LoggedInProfile (settings w));
    [exists []; now rewrite app_nil_r |].
  destruct (globalSettingsDb w) as [[| first rest] |]; cbn [snd];
    [exists []; now rewrite app_nil_r | exists []; now rewrite app_nil_r |].
  destruct (activeOrEmpty_createNewProfile None w) as [x Hx].
  now exists [x].
Qed.

Lemma deleteProfile_active w :
  activeOrEmpty (settings (deleteProfile w)) =
  activeOrEmpty (settings (snd (getLoggedInProfile w))).
Proof.
  unfold deleteProfile. destruct (getLoggedInProfile w) as [c w1].
  destruct c; reflexivity.
Qed.

Lemma deleteProfile_disk w : disk (deleteProfile w) = disk w.
Proof.
  pose proof (getLoggedInProfile_disk w) as H.
  unfold deleteProfile. destruct (getLoggedInProfile w) as [c w1].
  destruct c; exact H.
Qed.

Lemma renameProfile_disk n w : disk (renameProfile n w) = disk w.
Proof.
  pose proof (getLoggedInProfile_disk w) as H.
  unfold renameProfile. destruct (getLoggedInProfile w) as [c w1].
  destruct (String.eqb (sanitizeFileName n) ""); exact H.
Qed.

Lemma on_disk (e : Event.t) w : disk (snd (on e w)) = disk w.
Proof.
  destruct e; cbn [on snd].
  - apply getLoggedInProfile_disk.
  - reflexivity.
  - apply deleteProfile_disk.
  - reflexivity.
  - apply renameProfile_disk.
Qed.

Lemma on_active (e : Event.t) w :
  exists ext, activeOrEmpty (settings (snd (on e w))) =
              (activeOrEmpty (settings w) ++ ext)%list.
Proof.
  destruct e; cbn [on snd].
  - apply getLoggedInProfile_active.
  - destruct (activeOrEmpty_createNewProfile (Some profileName) w) as [x Hx].
    now exists [x].
  - rewrite deleteProfile_active. apply getLoggedInProfile_active.
  - exists []. now rewrite app_nil_r.
  - rewrite renameProfile_settings. apply getLoggedInProfile_active.
Qed.

Lemma deleteProfile_noDup w :
  noDuplicateIds (settings w) -> noDuplicateIds (settings (deleteProfile w)).
Proof.
  intros Hnd. apply getLoggedInProfile_noDup in Hnd.
  unfold deleteProfile. destruct (getLoggedInProfile w) as [c w1].
  destruct c; exact Hnd.
Qed.

Lemma on_noDup (e : Event.t) w :
  noDuplicateIds (settings w) -> noDuplicateIds (settings (snd (on e w))).
Proof.
  intros Hnd. destruct e; cbn [on snd].
  - now apply getLoggedInProfile_noDup.
  - now apply createNewProfile_noDup.
  - now apply deleteProfile_noDup.
  - exact Hnd.
  - rewrite renameProfile_settings. now apply getLoggedInProfile_noDup.
Qed.

End Requests.

(** X18: no request handled by a running process touches the disk: after
    any sequence of events the disk is the one the process started with.
    Directories are only renamed or removed by the apply phases. *)
Theorem onAll_disk {P : Platform} (es : list Event.t) (w : World P) :
  disk (onAll es w) = disk w.
Proof.
  revert w. induction es as [| e es IH]; intros w; simpl; [reflexivity |].
  rewrite IH. apply on_disk.
Qed.

(** X19: requests only ever append to ActiveProfiles: after any sequence of
    events the list starts with the ids it had, in the same order. *)
Theorem onAll_appends {P : Platform} (es : list Event.t) (w : World P) :
  exists ext,
    activeOrEmpty (settings (onAll es w)) =
    (activeOrEmpty (settings w) ++ ext)%list.
Proof.
  revert w. induction es as [| e es IH]; intros w; simpl.
  - exists []. now rewrite app_nil_r.
  - destruct (IH (snd (on e w))) as [ext2 H2].
    destruct (on_active e w) as [ext1 H1].
    exists (ext1 ++ ext2)%list. now rewrite H2, H1, app_assoc.
Qed.

(** X20: a duplicate-free ActiveProfiles stays duplicate-free under any
    sequence of requests to a running process. *)
Theorem onAll_noDup {P : Platform} (es : list Event.t) (w : World P) :
  noDuplicateIds (settings w) ->
  noDuplicateIds (settings (onAll es w)).
Proof.
  revert w. induction es as [| e es IH]; intros w Hnd; simpl; [exact Hnd |].
  apply IH. now apply on_noDup.
Qed.

Lemma onAll_noDup_witness :
  let w := Demo.world (Some "A") (Some ["A"]) None ["/userdata/profiles/A"]
             false None None in
  noDuplicateIds
    (settings (onAll [Event.createProfile "A"; Event.renameProfile "A";
                      Event.createProfile "A"; Event.deleteProfile;
                      Event.switchProfile "A1"] w)).
Proof.
  apply (@onAll_noDup Demo.platform).
  constructor; [simpl; tauto | constructor].
Defined.

(** ** What the apply phases depend on and leave alone *)

Lemma getLoggedInProfile_deleteMarker {P : Platform} (w : World P) :
  SettingsManager.deleteProfile (settings (snd (getLoggedInProfile w))) =
  SettingsManager.deleteProfile (settings w).
Proof.
  unfold getLoggedInProfile.
  destruct (loggedInUser w); [reflexivity |].
  destruct (SettingsManager.getSetting LoggedInProfile (settings w));
    [reflexivity |].
  destruct (globalSettingsDb w) as [[| first rest] |]; reflexivity.
Qed.

(** X21: the delete apply phase reads durable state only: run in a new
    process it stores the same settings and leaves the same disk as it would
    have in the process that recorded the marker. *)
Theorem handleProfileDeletion_durable {P : Platform} (w : World P) :
  settings (handleProfileDeletion (newProcess w)) =
    settings (handleProfileDeletion w) /\
  disk (handleProfileDeletion (newProcess w)) =
    disk (handleProfileDeletion w).
Proof.
  unfold handleProfileDeletion. simpl.
  destruct (SettingsManager.deleteProfile (settings w)) as [d |];
    [| now split].
  destruct (deleteFolderRecursive (profilePath d) (disk w)); [| now split].
  destruct (SettingsManager.activeProfiles (settings w)) as [a |];
    [| now split].
  destruct (Js.indexOf a d >? -1)%Z;
    [destruct (Js.splice1 a (Js.indexOf a d)) | destruct a];
    now split.
Qed.

(** X22: whatever run the rename apply phase takes, it leaves the
    DeleteProfile marker alone, and the only change it ever makes to the
    disk is the one [renameSync] returns for the directory of the resolved
    id and that of the pending target. *)
Theorem handleProfileRename_frame {P : Platform} (w : World P) :
  SettingsManager.deleteProfile (settings (handleProfileRename w)) =
    SettingsManager.deleteProfile (settings w) /\
  (disk (handleProfileRename w) = disk w \/
   exists cur new,
     fst (getLoggedInProfile w) = Some cur /\
     profileToRename w = Some new /\
     renameSync (profilePath cur) (profilePath new) (disk w) =
       Some (disk (handleProfileRename w))).
Proof.
  destruct (handleProfileRename_cases w)
    as [E | [E | [cur [new [a [d [Hp [Hne [Hc [Ha Hr]]]]]]]]]].
  - rewrite E. split; [reflexivity | now left].
  - rewrite E. split; [apply getLoggedInProfile_deleteMarker |].
    left. apply getLoggedInProfile_disk.
  - destruct (handleProfileRename_renamed w Hp Hne Hc Ha Hr) as [Hs Hd].
    rewrite Hs, Hd. split; [reflexivity |].
    right. exists cur, new. now repeat split.
Qed.
